(** * Network fee resolution of the SendTransaction page

    A shallow embedding of
    [src/ui/pages/SendTransaction/NetworkFee/NetworkFee.tsx]:
    the fee basis read off an incoming transaction
    ([getGasPriceFromTransaction]), the label of a fee kind
    ([getFeeTypeTitle]), the tier matching behind the confirmation time
    ([findMatchingEip1559], [time]), the fiat amount ([fiatValue]) and the
    component [NetworkFee] that ties them together.

    JavaScript values are modelled as far as the file looks at them:
    truthiness ([if (x)], [a && b], [a || b], [filter(isTruthy)]) and strict
    equality of numbers.  Numbers are IEEE 754 doubles, taken from the
    inductive specification [spec_float] of the standard library, so that
    [0], [-0] and [NaN] are there to be falsy. *)

From Stdlib Require Import ZArith QArith Qpower Qfield List String SpecFloat.
From stdpp Require Import base option list strings pretty gmap.

Import ListNotations.
Local Open Scope string_scope.

(** ** JavaScript values *)

Module JS.

(** A JavaScript number. *)
Definition number : Type := spec_float.

Definition NaN : number := S754_nan.
Definition pos_zero : number := S754_zero false.
Definition neg_zero : number := S754_zero true.

(** Doubles have 53 bits of precision and exponents up to 1024. *)
Definition prec : Z := 53.
Definition emax : Z := 1024.

(** The double nearest to an integer (ties to even). *)
Definition of_Z (z : Z) : number := binary_normalize prec emax z 0 false.

(** [ToBoolean] on numbers: [+0], [-0] and [NaN] are falsy. *)
Definition number_truthy (n : number) : bool :=
  match n with
  | S754_zero _ | S754_nan => false
  | S754_infinity _ | S754_finite _ _ _ => true
  end.

(** [x === y] on numbers: [NaN] equals nothing, [+0 === -0]. *)
Definition strict_eq (x y : number) : bool := SFeqb x y.

(** The values a field of a transaction can hold ([BigNumberish] and the
    absent cases).  [VObject s] is an object, such as a [BigNumber]
    instance, whose [toString()] is [s]. *)
Inductive value : Type :=
| VUndefined
| VNull
| VBoolean (b : bool)
| VNumber (n : number)
| VBigInt (z : Z)
| VString (s : string)
| VObject (s : string).

(** [ToBoolean]. *)
Definition truthy (v : value) : bool :=
  match v with
  | VUndefined | VNull => false
  | VBoolean b => b
  | VNumber n => number_truthy n
  | VBigInt z => negb (Z.eqb z 0)
  | VString s => negb (String.eqb s "")
  | VObject _ => true
  end.

(** A plain object read by property name; a missing property reads
    [undefined]. *)
Definition object : Type := gmap string value.

Definition get (o : object) (k : string) : value :=
  default VUndefined (o !! k).

(** [xs.filter(isTruthy)] on a list of objects-or-null. *)
Definition filter_isTruthy {A} (xs : list (option A)) : list A :=
  omap id xs.

End JS.

Import JS.

(** ** Data of the gas price feed *)

(** [EIP1559]: a priority fee and a maximal fee per unit of gas.  The tier
    entries of the feed are the same objects with an [estimation_seconds]
    next to the two fees; on a basis built from a transaction that
    property is absent. *)
Record EIP1559 : Type := {
  priority_fee : number;
  max_fee : number;
  estimation_seconds : option number;
}.

(** [GasPriceObject]: each of the two properties may be missing. *)
Record GasPriceObject : Type := {
  classic : option number;
  eip1559 : option EIP1559;
}.

(** [transaction: IncomingTransaction], an object read by property. *)
Definition IncomingTransaction : Type := object.

Section FeeBasis.

(** [Number(x)] of the language. *)
Variable Number : value -> number.
(** [getGas] of [src/modules/ethereum/transactions/getGas]. *)
Variable getGas : IncomingTransaction -> value.

Definition getGasPriceFromTransaction (transaction : IncomingTransaction)
  : option GasPriceObject :=
  let gasPrice := get transaction "gasPrice" in
  let maxFeePerGas := get transaction "maxFeePerGas" in
  let maxPriorityFeePerGas := get transaction "maxPriorityFeePerGas" in
  let estimatedGas := getGas transaction in
  if truthy estimatedGas && truthy gasPrice then
    Some {| classic := Some (Number gasPrice); eip1559 := None |}
  else if truthy maxPriorityFeePerGas && truthy maxFeePerGas then
    Some {| classic := None;
            eip1559 := Some {| priority_fee := Number maxPriorityFeePerGas;
                               max_fee := Number maxFeePerGas;
                               estimation_seconds := None |} |}
  else None.

End FeeBasis.

(** ** Fee kinds and their labels *)

(** [keyof ChainGasPrice['info']]. *)
Inductive FeeType : Type := Classic | Eip1559 | Optimistic.

(** The property name a kind stands for. *)
Definition FeeType_key (t : FeeType) : string :=
  match t with
  | Classic => "classic"
  | Eip1559 => "eip1559"
  | Optimistic => "optimistic"
  end.

Definition labels : gmap string string :=
  {[ "eip1559" := "EIP-1559"; "optimistic" := "Optimistic" ]}.

Definition getFeeTypeTitle (type : option FeeType) : option string :=
  match type with
  | None => None
  | Some t =>
      if String.eqb (FeeType_key t) "classic" then None
      else labels !! FeeType_key t
  end.

(** ** Chain gas prices *)

Module ClassicGasPrices.
(** Of the classic prices of a chain the component reads [fast]. *)
Record t : Type := { fast : number }.
End ClassicGasPrices.

Record EIP1559GasPrices : Type := {
  rapid : option EIP1559;
  fast : option EIP1559;
  standard : option EIP1559;
  slow : option EIP1559;
}.

Module Info.
(** [ChainGasPrice['info']]; its [optimistic] entry is never read here. *)
Record t : Type := {
  classic : option ClassicGasPrices.t;
  eip1559 : option EIP1559GasPrices;
}.
End Info.

Record ChainGasPrice : Type := { info : Info.t }.

(** ** Matching a transaction against the tiers *)

Definition isMatch (value1 value2 : EIP1559) : bool :=
  strict_eq (max_fee value1) (max_fee value2)
  && strict_eq (priority_fee value1) (priority_fee value2).

(** The candidates in the order of the array literal, the [null] ones
    filtered out. *)
Definition candidates (eip1559GasPrices : EIP1559GasPrices) : list EIP1559 :=
  filter_isTruthy
    [rapid eip1559GasPrices; fast eip1559GasPrices;
     standard eip1559GasPrices; slow eip1559GasPrices].

Definition findMatchingEip1559
    (eip1559GasPrices : EIP1559GasPrices) (eip1559 : EIP1559)
  : option EIP1559 :=
  List.find (fun eip1559Info => isMatch eip1559Info eip1559)
            (candidates eip1559GasPrices).

Section Time.

(** [formatSeconds] of [src/shared/units/formatSeconds]. *)
Variable formatSeconds : number -> string.

(** The [useMemo] callback behind [time]; [None] is [undefined]. *)
Definition time (gasPriceFromTransaction : option GasPriceObject)
                (chainGasPrices : option ChainGasPrice) : option string :=
  match gasPriceFromTransaction ≫= eip1559,
        chainGasPrices ≫= (fun c => Info.eip1559 (info c)) with
  | Some own, Some tiers =>
      let eip1559Info := findMatchingEip1559 tiers own in
      let seconds := eip1559Info ≫= estimation_seconds in
      match seconds with
      | Some s => if number_truthy s then Some ("~" ++ formatSeconds s)
                  else None
      | None => None
      end
  | _, _ => None
  end.

End Time.

(** ** Fiat value of an estimation *)

Module Price.
(** [nativeAsset.price]: fiat per whole unit.  The number is kept as the
    exact decimal that [BigNumber] reads from it. *)
Record t : Type := { value : Q }.
End Price.

Record Asset : Type := {
  decimals : Z;
  price : option Price.t;
}.

Module FeeEstimation.
(** What [getNetworkFeeEstimation] answers: a fee in base units and the
    kind of prices it was computed from. *)
Record t : Type := {
  value : Q;
  type : option FeeType;
}.
End FeeEstimation.

(** [Chain], a class around the chain's name. *)
Record Chain : Type := { toString : string }.

(** A result that may be [undefined], [null] or a value. *)
Inductive nullable (A : Type) : Type :=
| Undefined
| Null
| Defined (a : A).
Arguments Undefined {A}.
Arguments Null {A}.
Arguments Defined {A} a.

(** [x == null]. *)
Definition nullish {A} (x : nullable A) : bool :=
  match x with
  | Undefined | Null => true
  | Defined _ => false
  end.

(** Modelled from the spec: [baseToCommon] of [src/shared/units/convert] is
    not among the sources; the spec has it convert base units to the
    common (whole-unit) quantity using the asset's decimal exponent, that
    is, shift the decimal point [decimals] places to the left. *)
Definition baseToCommon (value : Q) (decimals : Z) : Q :=
  (value * 10 ^ (- decimals))%Q.

Section Fiat.

(** [getDecimals] of [src/modules/networks/asset]. *)
Variable getDecimals : Asset -> Chain -> Z.

(** The [useMemo] callback behind [fiatValue]. *)
Definition fiatValue (chain : Chain) (feeEstimation : option FeeEstimation.t)
                     (nativeAsset : option Asset) : nullable Q :=
  match nativeAsset, feeEstimation with
  | Some nativeAsset, Some feeEstimation =>
      let commonQuantity :=
        baseToCommon (FeeEstimation.value feeEstimation)
                     (getDecimals nativeAsset chain) in
      match price nativeAsset with
      | None => Null
      | Some price => Defined (commonQuantity * Price.value price)%Q
      end
  | _, _ => Undefined
  end.

End Fiat.

(** ** The fee estimation request *)

(** A thrown [Error]. *)
Inductive exn : Type :=
| Error (message : string)
| TypeError.

(** The argument of [getNetworkFeeEstimation]. *)
Record EstimationRequest : Type := {
  transaction : IncomingTransaction;
  address : value;
  gas : number;
  gasPrices : option ChainGasPrice;
  gasPrice : GasPriceObject;
}.

(** [a || b] on values. *)
Definition or_else (a b : value) : value := if truthy a then a else b.

Section Request.

Variable Number : value -> number.

(** What the query function of the ['feeEstimation'] query computes from
    the prices the subscription delivers, up to the call of
    [getNetworkFeeEstimation].  Reading [.info] of a chain that has no
    entry is a [TypeError]; it is read only when the transaction gives no
    prices of its own. *)
Definition feeEstimationRequest
    (transaction : IncomingTransaction) (chain : Chain) (gas : value)
    (gasPriceFromTransaction : option GasPriceObject)
    (gasPrices : gmap string ChainGasPrice) : exn + EstimationRequest :=
  let chainGasPrices := gasPrices !! toString chain in
  let build gasPrice :=
    {| transaction := transaction;
       address := or_else (get transaction "from") VNull;
       gas := Number gas;
       gasPrices := chainGasPrices;
       gasPrice := gasPrice |} in
  match gasPriceFromTransaction with
  | Some own => inr (build own)
  | None =>
      match chainGasPrices with
      | None => inl TypeError
      | Some c =>
          inr (build
            {| classic := ClassicGasPrices.fast <$> Info.classic (info c);
               eip1559 := Info.eip1559 (info c) ≫= fast |})
      end
  end.

End Request.

(** ** The component *)

(** What the ['feeEstimation'] query hands back to a render. *)
Record QueryResult : Type := {
  data : option FeeEstimation.t;
  isLoading : bool;
}.

(** What a dependency array of [useMemo] holds. *)
Inductive dep : Type :=
| DTransaction (transaction : IncomingTransaction)
| DTiers (tiers : option EIP1559GasPrices)
| DBasis (gasPriceFromTransaction : option GasPriceObject)
| DChain (chain : Chain)
| DEstimation (feeEstimation : option FeeEstimation.t)
| DAsset (nativeAsset : option Asset).

(** The hooks a render of [NetworkFee] calls, each with the type of its
    answer.  The query functions are the closures of the source, taken as
    functions of what [gasChainPricesSubscription.get()] resolves to; the
    query of the gas prices is made with the option [useErrorBoundary],
    under which a failed fetch is thrown by the hook during the render. *)
Inductive hookE : Type -> Type :=
| useNativeAsset (chain : Chain) : hookE (option Asset)
| useQuery_gasPrices
    (queryKey : list string)
    (queryFn : gmap string ChainGasPrice -> option ChainGasPrice)
    (useErrorBoundary : bool)
  : hookE (option ChainGasPrice)
| useMemo {T : Type} (factory : unit -> T) (deps : list dep) : hookE T
| useQuery_feeEstimation
    (chain : Chain) (transaction : IncomingTransaction)
    (queryFn : gmap string ChainGasPrice -> exn + EstimationRequest)
  : hookE QueryResult.

(** A render: it returns, throws, or calls a hook and goes on with the
    answer. *)
Inductive render (A : Type) : Type :=
| Ret (a : A)
| Throw (e : exn)
| Call {X : Type} (h : hookE X) (k : X -> render A).
Arguments Ret {A} a.
Arguments Throw {A} e.
Arguments Call {A X} h k.

Notation "x <- h ;; k" := (Call h (fun x => k))
  (at level 100, h at next level, right associativity, only parsing).

(** The elements [NetworkFee] renders; [Nothing] is a [null] child. *)
#[warnings="-register-all"] Inductive element : Type :=
| Nothing
| CircleSpinner
| UIText (kind : string) (title : option string) (children : string)
| HStack (children : list element).

(** [xs.filter(isTruthy).join(sep)] on strings-or-undefined, for a given
    [isTruthy]; [join] writes an [undefined] that is let through as the
    empty string. *)
Definition filter_join (isTruthy : option string -> bool) (sep : string)
    (xs : list (option string)) : string :=
  String.concat sep (List.map (default "") (List.filter isTruthy xs)).

Section Component.

Variable Number : value -> number.
Variable getGas : IncomingTransaction -> value.
Variable formatSeconds : number -> string.
Variable getDecimals : Asset -> Chain -> Z.
(** [formatCurrencyValue] of [src/shared/units/formatCurrencyValue]. *)
Variable formatCurrencyValue : Q -> string -> string -> string.
(** [isTruthy] of the package [is-truthy-ts], on a string or
    [undefined]. *)
Variable isTruthy : option string -> bool.

Definition NetworkFee (transaction : IncomingTransaction) (chain : Chain)
  : render element :=
  let gas := getGas transaction in
  if negb (truthy gas) then
    Throw (Error "gas field is expected to be found on Transaction object")
  else
    nativeAsset <- useNativeAsset chain ;;
    chainGasPrices <-
      useQuery_gasPrices ["defi-sdk/gasPrices"; toString chain]
        (fun gasPrices => gasPrices !! toString chain) true ;;
    gasPriceFromTransaction <-
      useMemo (fun _ => getGasPriceFromTransaction Number getGas transaction)
              [DTransaction transaction] ;;
    query <-
      useQuery_feeEstimation chain transaction
        (feeEstimationRequest Number transaction chain gas
                              gasPriceFromTransaction) ;;
    let feeEstimation := data query in
    time <-
      useMemo (fun _ => time formatSeconds gasPriceFromTransaction
                             chainGasPrices)
              [DTiers (chainGasPrices ≫= (fun c => Info.eip1559 (info c)));
               DBasis gasPriceFromTransaction] ;;
    fiatValue <-
      useMemo (fun _ => fiatValue getDecimals chain feeEstimation
                                  nativeAsset)
              [DChain chain; DEstimation feeEstimation;
               DAsset nativeAsset] ;;
    Ret (HStack
      [ UIText "body/s_reg" None "Network Fee";
        if isLoading query then CircleSpinner
        else match fiatValue with
             | Undefined | Null => Nothing
             | Defined fiat =>
                 UIText "body/s_reg"
                   (getFeeTypeTitle (feeEstimation ≫= FeeEstimation.type))
                   (filter_join isTruthy " · "
                      [time; Some (formatCurrencyValue fiat "en" "usd")])
             end ]).

End Component.

(** ** Running a render *)

(** The state of the subscription of the gas prices. *)
Inductive fetch (A : Type) : Type :=
| Pending
| Failed (e : exn)
| Resolved (a : A).
Arguments Pending {A}.
Arguments Failed {A} e.
Arguments Resolved {A} a.

(** What the surroundings of the component answer: the native asset of a
    chain, the subscription of the gas prices, and the estimation
    service. *)
Record Env : Type := {
  nativeAssets : Chain -> option Asset;
  subscription : fetch (gmap string ChainGasPrice);
  getNetworkFeeEstimation : EstimationRequest -> FeeEstimation.t;
}.

(** The answer of a hook, or what it throws.  A memo is the value of its
    factory.  A query whose fetch has failed throws when it was made with
    [useErrorBoundary] and has no data otherwise. *)
Definition handle (env : Env) {X} (h : hookE X) : exn + X :=
  match h with
  | useNativeAsset chain => inr (nativeAssets env chain)
  | useQuery_gasPrices _ queryFn useErrorBoundary =>
      match subscription env with
      | Pending => inr None
      | Failed e => if useErrorBoundary then inl e else inr None
      | Resolved gasPrices => inr (queryFn gasPrices)
      end
  | useMemo factory _ => inr (factory tt)
  | useQuery_feeEstimation _ _ queryFn =>
      match subscription env with
      | Pending => inr {| data := None; isLoading := true |}
      | Failed _ => inr {| data := None; isLoading := false |}
      | Resolved gasPrices =>
          match queryFn gasPrices with
          | inl _ => inr {| data := None; isLoading := false |}
          | inr request =>
              inr {| data := Some (getNetworkFeeEstimation env request);
                     isLoading := false |}
          end
      end
  end.

(** The hooks called, in order. *)
Inductive called : Type :=
| Called {X : Type} (h : hookE X).

Fixpoint run {A} (env : Env) (r : render A) : (exn + A) * list called :=
  match r with
  | Ret a => (inr a, [])
  | Throw e => (inl e, [])
  | Call h k =>
      match handle env h with
      | inl e => (inl e, [Called h])
      | inr x =>
          let '(res, log) := run env (k x) in
          (res, Called h :: log)
      end
  end.

(** What a hook gives under arbitrary answers of the hooks around the
    component: a memo is the value of its factory, every other hook
    answers or throws as [answer] has it. *)
Definition resolve (answer : forall X, hookE X -> exn + X) {X}
    (h : hookE X) : exn + X :=
  match h with
  | useMemo factory _ => inr (factory tt)
  | useNativeAsset chain => answer _ (useNativeAsset chain)
  | useQuery_gasPrices queryKey queryFn useErrorBoundary =>
      answer _ (useQuery_gasPrices queryKey queryFn useErrorBoundary)
  | useQuery_feeEstimation chain transaction queryFn =>
      answer _ (useQuery_feeEstimation chain transaction queryFn)
  end.

(** A render under arbitrary answers of its hooks. *)
Fixpoint interp {A} (answer : forall X, hookE X -> exn + X) (r : render A)
  : exn + A :=
  match r with
  | Ret a => inr a
  | Throw e => inl e
  | Call h k =>
      match resolve answer h with
      | inl e => inl e
      | inr x => interp answer (k x)
      end
  end.

(** ** A runtime to evaluate with

    The theorems below hold for every [Number], [getGas], [formatSeconds],
    [getDecimals], [formatCurrencyValue] and [isTruthy].  To evaluate the
    component on concrete transactions this module fixes one choice of
    them. *)

Module Sample.

Definition digit (c : Ascii.ascii) : option Z :=
  let n := Z.of_N (Ascii.N_of_ascii c) in
  if ((48 <=? n) && (n <=? 57))%Z then Some (n - 48)%Z else None.

Fixpoint decimal (s : string) (acc : Z) : option Z :=
  match s with
  | EmptyString => Some acc
  | String c rest =>
      match digit c with
      | Some d => decimal rest (10 * acc + d)%Z
      | None => None
      end
  end.

(** [Number] on the values used below: numbers, the absent values,
    booleans, bigints, and strings or [BigNumber]s that spell a decimal
    integer; the empty string is [0].  No other string is given a value
    here ([NaN]). *)
Definition Number (v : value) : number :=
  match v with
  | VUndefined => NaN
  | VNull => pos_zero
  | VBoolean b => if b then of_Z 1 else pos_zero
  | VNumber n => n
  | VBigInt z => of_Z z
  | VString s | VObject s =>
      match decimal s 0 with
      | Some z => of_Z z
      | None => NaN
      end
  end.

(** The gas lookup reads the [gas] property. *)
Definition getGas (transaction : IncomingTransaction) : value :=
  get transaction "gas".

(** The integer part of a number, [0] where there is none. *)
Definition trunc (n : number) : Z :=
  match n with
  | S754_finite s m e =>
      let a := if (0 <=? e)%Z then (Z.pos m * 2 ^ e)%Z
               else (Z.pos m / 2 ^ (- e))%Z in
      if s then (- a)%Z else a
  | _ => 0%Z
  end.

Definition formatSeconds (seconds : number) : string :=
  pretty (trunc seconds) ++ " sec".

Definition getDecimals (asset : Asset) (_ : Chain) : Z := decimals asset.

Definition formatCurrencyValue (amount : Q) (_ _ : string) : string :=
  "$" ++ pretty (Qnum amount / Z.pos (Qden amount))%Z.

(** [isTruthy] as [Boolean(x)]: [undefined] and the empty string are
    dropped.  Below it meets [undefined] and non-empty strings only. *)
Definition isTruthy (x : option string) : bool :=
  match x with
  | Some s => negb (String.eqb s "")
  | None => false
  end.

Definition tx (fields : list (string * value)) : IncomingTransaction :=
  list_to_map fields.

End Sample.

(** ** Conditions and predicates of the statements *)

Section Conditions.

Variable getGas : IncomingTransaction -> value.

(** The classic condition of the first [if]. *)
Definition classic_condition (transaction : IncomingTransaction) : bool :=
  truthy (getGas transaction) && truthy (get transaction "gasPrice").

(** The condition of the second [if]. *)
Definition eip1559_condition (transaction : IncomingTransaction) : bool :=
  truthy (get transaction "maxPriorityFeePerGas")
  && truthy (get transaction "maxFeePerGas").

End Conditions.

(** Both fees strictly equal, as [isMatch] tests them. *)
Definition fees_equal (tier target : EIP1559) : Prop :=
  strict_eq (max_fee tier) (max_fee target) = true
  /\ strict_eq (priority_fee tier) (priority_fee target) = true.

(** [0 < x] on numbers. *)
Definition positive (x : number) : bool := SFltb pos_zero x.

Section TimeConditions.

Variable formatSeconds : number -> string.

(** What it takes for a time to be shown, the test on the seconds left
    open: the transaction's own basis has an EIP-1559 part, the chain has
    EIP-1559 tiers, a tier matches, and its seconds pass [ok]. *)
Definition time_conditions (ok : number -> bool)
    (gasPriceFromTransaction : option GasPriceObject)
    (chainGasPrices : option ChainGasPrice) (seconds : number) : Prop :=
  exists own tiers tier,
    gasPriceFromTransaction ≫= eip1559 = Some own
    /\ chainGasPrices ≫= (fun c => Info.eip1559 (info c)) = Some tiers
    /\ findMatchingEip1559 tiers own = Some tier
    /\ estimation_seconds tier = Some seconds
    /\ ok seconds = true.

(** The claim as the specification words it: a time string only for
    seconds that are positive. *)
Definition time_only_when_positive
    (gasPriceFromTransaction : option GasPriceObject)
    (chainGasPrices : option ChainGasPrice) : Prop :=
  is_Some (time formatSeconds gasPriceFromTransaction chainGasPrices) ->
  exists seconds,
    time_conditions positive gasPriceFromTransaction chainGasPrices seconds.

End TimeConditions.

Section FiatConditions.

Variable getDecimals : Asset -> Chain -> Z.

(** The claim as the specification words it: with a price the product,
    without one a result that is neither zero nor null-equivalent. *)
Definition fiat_unknown_is_not_null
    (chain : Chain) (feeEstimation : FeeEstimation.t) (nativeAsset : Asset)
  : Prop :=
  match price nativeAsset with
  | Some p =>
      fiatValue getDecimals chain (Some feeEstimation) (Some nativeAsset)
      = Defined (baseToCommon (FeeEstimation.value feeEstimation)
                              (getDecimals nativeAsset chain)
                 * Price.value p)%Q
  | None =>
      nullish (fiatValue getDecimals chain (Some feeEstimation)
                         (Some nativeAsset)) = false
      /\ fiatValue getDecimals chain (Some feeEstimation) (Some nativeAsset)
         <> Defined 0%Q
  end.

End FiatConditions.



(** The error of a render without gas. *)
Definition missing_gas : exn :=
  Error "gas field is expected to be found on Transaction object".

(** ** Data to evaluate on *)

Module Transactions.

(** Legacy and EIP-1559 fields side by side. *)
Definition both : IncomingTransaction :=
  Sample.tx [("from", VString "0xabc"); ("gas", VString "21000");
             ("gasPrice", VString "50000000000");
             ("maxFeePerGas", VString "70000000000");
             ("maxPriorityFeePerGas", VString "2000000000")].

Definition eip1559_only : IncomingTransaction :=
  Sample.tx [("gas", VString "21000");
             ("maxFeePerGas", VString "70000000000");
             ("maxPriorityFeePerGas", VString "2000000000")].

Definition gas_only : IncomingTransaction :=
  Sample.tx [("gas", VString "21000")].

Definition no_gas : IncomingTransaction :=
  Sample.tx [("gasPrice", VString "50000000000")].

Definition zero_gasPrice : IncomingTransaction :=
  Sample.tx [("gas", VString "21000"); ("gasPrice", VNumber pos_zero);
             ("maxFeePerGas", VString "70000000000");
             ("maxPriorityFeePerGas", VString "2000000000")].

Definition zero_priority : IncomingTransaction :=
  Sample.tx [("gas", VString "21000");
             ("maxFeePerGas", VString "70000000000");
             ("maxPriorityFeePerGas", VNumber pos_zero)].

End Transactions.

Module Tiers.

(** A tier of the feed. *)
Definition tier (maxFee priorityFee seconds : Z) : EIP1559 :=
  {| priority_fee := of_Z priorityFee;
     max_fee := of_Z maxFee;
     estimation_seconds := Some (of_Z seconds) |}.

(** The fees of a transaction. *)
Definition target (maxFee priorityFee : Z) : EIP1559 :=
  {| priority_fee := of_Z priorityFee;
     max_fee := of_Z maxFee;
     estimation_seconds := None |}.

(** [rapid] and [fast] with the same fees, [standard] absent. *)
Definition tied : EIP1559GasPrices :=
  {| rapid := Some (tier 10 1 5);
     fast := Some (tier 10 1 10);
     standard := None;
     slow := Some (tier 8 1 60) |}.

End Tiers.

Module Chains.

Definition ethereum : Chain := {| toString := "ethereum" |}.

Definition prices (tiers : EIP1559GasPrices) : ChainGasPrice :=
  {| info := {| Info.classic :=
                  Some {| ClassicGasPrices.fast := of_Z 40000000000 |};
                Info.eip1559 := Some tiers |} |}.

(** A feed whose only tier carries the given seconds. *)
Definition one_tier (seconds : Z) : ChainGasPrice :=
  prices {| rapid := None; fast := Some (Tiers.tier 10 1 seconds);
            standard := None; slow := None |}.

Definition own_basis : option GasPriceObject :=
  Some {| classic := None; eip1559 := Some (Tiers.target 10 1) |}.

End Chains.

Module Assets.

Definition ether (price : option Q) : Asset :=
  {| decimals := 18; price := Price.Build_t <$> price |}.

(** A fee of [10^18] base units. *)
Definition one_ether_fee : FeeEstimation.t :=
  {| FeeEstimation.value := 1000000000000000000;
     FeeEstimation.type := Some Classic |}.

End Assets.

Module Feeds.

(** The subscription with prices for one chain. *)
Definition ethereum_only : gmap string ChainGasPrice :=
  {[ "ethereum" := Chains.prices Tiers.tied ]}.

End Feeds.

Module Environments.

(** An estimation service to evaluate with: gas times the classic price,
    or else times the maximal fee. *)
Definition estimate (r : EstimationRequest) : FeeEstimation.t :=
  match classic (gasPrice r), eip1559 (gasPrice r) with
  | Some p, _ =>
      {| FeeEstimation.value :=
           inject_Z (Sample.trunc (gas r) * Sample.trunc p);
         FeeEstimation.type := Some Classic |}
  | None, Some e =>
      {| FeeEstimation.value :=
           inject_Z (Sample.trunc (gas r) * Sample.trunc (max_fee e));
         FeeEstimation.type := Some Eip1559 |}
  | None, None =>
      {| FeeEstimation.value := 0; FeeEstimation.type := None |}
  end.

(** Everything has resolved; ether costs 2000. *)
Definition resolved : Env :=
  {| nativeAssets := fun _ => Some (Assets.ether (Some 2000%Q));
     subscription := Resolved Feeds.ethereum_only;
     getNetworkFeeEstimation := estimate |}.

(** The subscription has not answered yet. *)
Definition pending : Env :=
  {| nativeAssets := fun _ => Some (Assets.ether (Some 2000%Q));
     subscription := Pending;
     getNetworkFeeEstimation := estimate |}.

(** The fetch of the gas prices has failed. *)
Definition failed : Env :=
  {| nativeAssets := fun _ => Some (Assets.ether (Some 2000%Q));
     subscription := Failed (Error "Failed to fetch");
     getNetworkFeeEstimation := estimate |}.

Definition render_with (env : Env) (tx : IncomingTransaction)
  : exn + element :=
  fst (run env (NetworkFee Sample.Number Sample.getGas Sample.formatSeconds
                  Sample.getDecimals Sample.formatCurrencyValue
                  Sample.isTruthy tx Chains.ethereum)).

End Environments.

(** * Properties *)

(** ** The fee basis of a transaction *)

Section FeeBasisFacts.

Variable Number : value -> number.
Variable getGas : IncomingTransaction -> value.

Local Abbreviation basis := (getGasPriceFromTransaction Number getGas).

(** The function is its three branches, taken in order. *)
Lemma getGasPriceFromTransaction_cases transaction :
  basis transaction =
    if classic_condition getGas transaction then
      Some {| classic := Some (Number (get transaction "gasPrice"));
              eip1559 := None |}
    else if eip1559_condition transaction then
      Some {| classic := None;
              eip1559 :=
                Some {| priority_fee :=
                          Number (get transaction "maxPriorityFeePerGas");
                        max_fee := Number (get transaction "maxFeePerGas");
                        estimation_seconds := None |} |}
    else None.
Proof. reflexivity. Qed.

(** A number that is zero, of either sign, is falsy. *)
Lemma zero_is_falsy sign : truthy (VNumber (S754_zero sign)) = false.
Proof. reflexivity. Qed.

(** C1: when the estimated gas and the legacy [gasPrice] are both truthy,
    the basis is the classic one, with [Number(gasPrice)] as its price and
    no EIP-1559 part, whatever [maxFeePerGas] and [maxPriorityFeePerGas]
    hold. *)
Theorem classic_takes_precedence transaction :
  truthy (getGas transaction) = true ->
  truthy (get transaction "gasPrice") = true ->
  basis transaction =
    Some {| classic := Some (Number (get transaction "gasPrice"));
            eip1559 := None |}.
Proof.
  intros Hgas Hprice.
  rewrite getGasPriceFromTransaction_cases.
  unfold classic_condition. now rewrite Hgas, Hprice.
Qed.

(** C3: when the classic condition fails and [maxPriorityFeePerGas] and
    [maxFeePerGas] are both truthy, the basis is the EIP-1559 one, its two
    fees being [Number] of the two fields. *)
Theorem eip1559_when_not_classic transaction :
  classic_condition getGas transaction = false ->
  truthy (get transaction "maxPriorityFeePerGas") = true ->
  truthy (get transaction "maxFeePerGas") = true ->
  basis transaction =
    Some {| classic := None;
            eip1559 :=
              Some {| priority_fee :=
                        Number (get transaction "maxPriorityFeePerGas");
                      max_fee := Number (get transaction "maxFeePerGas");
                      estimation_seconds := None |} |}.
Proof.
  intros Hclassic Hprio Hmax.
  rewrite getGasPriceFromTransaction_cases, Hclassic.
  unfold eip1559_condition. now rewrite Hprio, Hmax.
Qed.

(** C4: when neither condition holds the function returns [null]; being a
    total function it has no other outcome, no error and no default
    basis. *)
Theorem no_basis_when_neither transaction :
  classic_condition getGas transaction = false ->
  eip1559_condition transaction = false ->
  basis transaction = None.
Proof.
  intros Hclassic Heip.
  now rewrite getGasPriceFromTransaction_cases, Hclassic, Heip.
Qed.

(** C10: a fee field holding the number zero counts as absent.  With the
    gas present and [gasPrice] zero the classic branch is skipped: the
    basis has no classic part and is what the second and third branch
    give.  With [maxFeePerGas] present, [maxPriorityFeePerGas] zero and
    the classic condition not met, there is no basis. *)
Theorem zero_fee_counts_as_absent transaction sign :
  (truthy (getGas transaction) = true ->
   get transaction "gasPrice" = VNumber (S754_zero sign) ->
   basis transaction ≫= classic = None
   /\ basis transaction =
        if eip1559_condition transaction then
          Some {| classic := None;
                  eip1559 :=
                    Some {| priority_fee :=
                              Number (get transaction "maxPriorityFeePerGas");
                            max_fee :=
                              Number (get transaction "maxFeePerGas");
                            estimation_seconds := None |} |}
        else None)
  /\ (classic_condition getGas transaction = false ->
      truthy (get transaction "maxFeePerGas") = true ->
      get transaction "maxPriorityFeePerGas" = VNumber (S754_zero sign) ->
      basis transaction = None).
Proof.
  split.
  - intros _ Hzero.
    assert (classic_condition getGas transaction = false) as Hclassic.
    { unfold classic_condition.
      rewrite Hzero, zero_is_falsy. apply andb_false_r. }
    rewrite getGasPriceFromTransaction_cases, Hclassic.
    destruct (eip1559_condition transaction); split; reflexivity.
  - intros Hclassic _ Hzero.
    rewrite getGasPriceFromTransaction_cases, Hclassic.
    unfold eip1559_condition. now rewrite Hzero, zero_is_falsy.
Qed.

End FeeBasisFacts.

Lemma classic_takes_precedence_witness :
  truthy (get Transactions.both "maxFeePerGas") = true
  /\ truthy (get Transactions.both "maxPriorityFeePerGas") = true
  /\ getGasPriceFromTransaction Sample.Number Sample.getGas Transactions.both
     = Some {| classic := Some (of_Z 50000000000); eip1559 := None |}.
Proof.
  split; [reflexivity|]. split; [reflexivity|].
  exact (classic_takes_precedence Sample.Number Sample.getGas
           Transactions.both eq_refl eq_refl).
Defined.

Lemma eip1559_when_not_classic_witness :
  getGasPriceFromTransaction Sample.Number Sample.getGas
    Transactions.eip1559_only
  = Some {| classic := None;
            eip1559 := Some {| priority_fee := of_Z 2000000000;
                               max_fee := of_Z 70000000000;
                               estimation_seconds := None |} |}.
Proof.
  exact (eip1559_when_not_classic Sample.Number Sample.getGas
           Transactions.eip1559_only eq_refl eq_refl eq_refl).
Defined.

Lemma no_basis_when_neither_witness :
  getGasPriceFromTransaction Sample.Number Sample.getGas Transactions.gas_only
  = None.
Proof.
  exact (no_basis_when_neither Sample.Number Sample.getGas
           Transactions.gas_only eq_refl eq_refl).
Defined.

Lemma zero_fee_counts_as_absent_witness :
  getGasPriceFromTransaction Sample.Number Sample.getGas
    Transactions.zero_gasPrice ≫= classic = None
  /\ getGasPriceFromTransaction Sample.Number Sample.getGas
       Transactions.zero_priority = None.
Proof.
  split.
  - exact (proj1 (proj1 (zero_fee_counts_as_absent Sample.Number Sample.getGas
                           Transactions.zero_gasPrice false)
                        eq_refl eq_refl)).
  - exact (proj2 (zero_fee_counts_as_absent Sample.Number Sample.getGas
                    Transactions.zero_priority false)
                 eq_refl eq_refl eq_refl).
Defined.

(** A string that spells zero is truthy: the classic branch is taken, with
    price [0]. *)
Example zero_string_is_present :
  getGasPriceFromTransaction Sample.Number Sample.getGas
    (Sample.tx [("gas", VString "21000"); ("gasPrice", VString "0")])
  = Some {| classic := Some pos_zero; eip1559 := None |}.
Proof. reflexivity. Qed.

(** ** Labels *)

(** C6: [getFeeTypeTitle] is a total function, and on its four inputs it
    answers [undefined] for [classic], ["EIP-1559"] for [eip1559],
    ["Optimistic"] for [optimistic] and [undefined] for [undefined]. *)
Theorem getFeeTypeTitle_table :
  getFeeTypeTitle (Some Classic) = None
  /\ getFeeTypeTitle (Some Eip1559) = Some "EIP-1559"
  /\ getFeeTypeTitle (Some Optimistic) = Some "Optimistic"
  /\ getFeeTypeTitle None = None.
Proof. repeat split; vm_compute; reflexivity. Qed.

(** Every kind but [classic] has its label in the table. *)
Lemma getFeeTypeTitle_labelled t :
  t <> Classic -> is_Some (getFeeTypeTitle (Some t)).
Proof. destruct t; [congruence | vm_compute; eauto ..]. Qed.

(** ** Tier matching *)

Lemma isMatch_true tier target :
  isMatch tier target = true <-> fees_equal tier target.
Proof. unfold isMatch, fees_equal. apply andb_true_iff. Qed.

Lemma isMatch_false tier target :
  isMatch tier target = false <-> ~ fees_equal tier target.
Proof.
  rewrite <- isMatch_true. destruct (isMatch tier target); split; intros H;
    solve [reflexivity | discriminate | now contradiction H | now intros ?].
Qed.

(** [find] stops at the first element that passes the test. *)
Lemma find_first {A} (p : A -> bool) (l : list A) :
  match List.find p l with
  | Some x =>
      exists before after,
        l = (before ++ x :: after)%list /\ p x = true
        /\ Forall (fun y => p y = false) before
  | None => Forall (fun y => p y = false) l
  end.
Proof.
  induction l as [|a l IH]; simpl.
  - constructor.
  - destruct (p a) eqn:Ha.
    + exists [], l. repeat split; [exact Ha | constructor].
    + destruct (List.find p l) as [x|].
      * destruct IH as (before & after & -> & Hx & Hbefore).
        exists (a :: before), after. repeat split; [exact Hx|].
        now constructor.
      * now constructor.
Qed.

(** [filter(isTruthy)] drops the [null] entries and keeps the others in
    place. *)
Lemma filter_isTruthy_spec {A} (xs : list (option A)) :
  Some <$> filter_isTruthy xs = filter is_Some xs.
Proof.
  unfold filter_isTruthy.
  induction xs as [|[a|] xs IH]; simpl.
  - reflexivity.
  - rewrite filter_cons_True by eauto. simpl. now f_equal.
  - rewrite filter_cons_False by (intros [? ?]; discriminate). exact IH.
Qed.

(** C2: the candidates are [rapid, fast, standard, slow] in this order with
    the absent ones dropped; the result is the first candidate whose two
    fees strictly equal the target's, every candidate before it failing the
    test; there is no result exactly when no candidate passes; and a
    matching [rapid] is returned whatever [fast] holds. *)
Theorem findMatchingEip1559_first_match prices target :
  Some <$> candidates prices
    = filter is_Some [rapid prices; fast prices; standard prices; slow prices]
  /\ match findMatchingEip1559 prices target with
     | Some tier =>
         exists before after,
           candidates prices = (before ++ tier :: after)%list
           /\ fees_equal tier target
           /\ Forall (fun c => ~ fees_equal c target) before
     | None => Forall (fun c => ~ fees_equal c target) (candidates prices)
     end
  /\ (forall r, rapid prices = Some r -> fees_equal r target ->
        findMatchingEip1559 prices target = Some r).
Proof.
  split; [apply filter_isTruthy_spec|]. split.
  - unfold findMatchingEip1559.
    pose proof (find_first (fun c => isMatch c target) (candidates prices))
      as Hfind.
    destruct (List.find _ _) as [tier|].
    + destruct Hfind as (before & after & Heq & Htier & Hbefore).
      exists before, after. split; [exact Heq|].
      split; [now apply isMatch_true|].
      eapply Forall_impl; [exact Hbefore|].
      intros c Hc. now apply isMatch_false.
    + eapply Forall_impl; [exact Hfind|].
      intros c Hc. now apply isMatch_false.
  - intros r Hrapid Hr. apply isMatch_true in Hr.
    unfold findMatchingEip1559, candidates, filter_isTruthy.
    rewrite Hrapid. simpl. now rewrite Hr.
Qed.

Lemma findMatchingEip1559_first_match_witness :
  findMatchingEip1559 Tiers.tied (Tiers.target 10 1)
  = Some (Tiers.tier 10 1 5).
Proof.
  apply (proj2 (proj2 (findMatchingEip1559_first_match
                         Tiers.tied (Tiers.target 10 1)))).
  - reflexivity.
  - split; reflexivity.
Defined.

(** No tier has the fees [99, 99]. *)
Example findMatchingEip1559_no_match :
  findMatchingEip1559 Tiers.tied (Tiers.target 99 99) = None.
Proof. reflexivity. Qed.

(** An absent [rapid] is passed over: [slow] is found behind the gap. *)
Example findMatchingEip1559_skips_absent :
  findMatchingEip1559
    {| rapid := None; fast := None; standard := None;
       slow := Some (Tiers.tier 8 1 60) |}
    (Tiers.target 8 1)
  = Some (Tiers.tier 8 1 60).
Proof. reflexivity. Qed.

(** [NaN] equals nothing, itself included: a target that is not a number
    matches no tier. *)
Example findMatchingEip1559_NaN :
  let nan := {| priority_fee := NaN; max_fee := NaN;
                estimation_seconds := Some (of_Z 5) |} in
  findMatchingEip1559
    {| rapid := Some nan; fast := None; standard := None; slow := None |} nan
  = None.
Proof. reflexivity. Qed.

(** ** The confirmation time *)

(** A positive number is truthy; so is a negative one. *)
Lemma positive_truthy x : positive x = true -> number_truthy x = true.
Proof.
  destruct x as [[]|[]| |[] m e]; intros H;
    solve [reflexivity | discriminate H].
Qed.

Section TimeFacts.

Variable formatSeconds : number -> string.

(** A time is there exactly when the tier that [findMatchingEip1559]
    returns has truthy seconds. *)
Lemma time_some_iff gasPriceFromTransaction chainGasPrices s :
  time formatSeconds gasPriceFromTransaction chainGasPrices = Some s
  <-> exists seconds,
        time_conditions number_truthy
          gasPriceFromTransaction chainGasPrices seconds
        /\ s = "~" ++ formatSeconds seconds.
Proof.
  unfold time, time_conditions. split.
  - destruct (gasPriceFromTransaction ≫= eip1559) as [own|];
      [|discriminate].
    destruct (chainGasPrices ≫= _) as [tiers|]; [|discriminate].
    simpl.
    destruct (findMatchingEip1559 tiers own) as [tier|] eqn:Hfind;
      [|discriminate].
    simpl.
    destruct (estimation_seconds tier) as [seconds|] eqn:Hsec;
      [|discriminate].
    destruct (number_truthy seconds) eqn:Hok; [|discriminate].
    intros [= <-]. exists seconds. split; [|reflexivity].
    exists own, tiers, tier. auto.
  - intros (seconds & (own & tiers & tier & -> & -> & Hfind & Hsec & Hok)
                    & ->).
    simpl. rewrite Hfind. simpl. rewrite Hsec, Hok. reflexivity.
Qed.

(** C9, amended: a time string is produced only when the transaction's own
    basis has an EIP-1559 part, the chain has EIP-1559 tiers, a tier
    matches, and the seconds of the matched tier, the one
    [findMatchingEip1559] returns, are truthy, that is a number other than
    [0], [-0] and [NaN]; the string then is ["~"] followed by the
    formatted seconds.  In every other case there is none: without an
    EIP-1559 part of the basis, without tiers, without a match, and with a
    matched tier whose seconds are absent or falsy. *)
Theorem time_only_when_truthy gasPriceFromTransaction chainGasPrices :
  (forall s,
     time formatSeconds gasPriceFromTransaction chainGasPrices = Some s ->
     exists own tiers tier seconds,
       gasPriceFromTransaction ≫= eip1559 = Some own
       /\ chainGasPrices ≫= (fun c => Info.eip1559 (info c)) = Some tiers
       /\ findMatchingEip1559 tiers own = Some tier
       /\ fees_equal tier own
       /\ estimation_seconds tier = Some seconds
       /\ number_truthy seconds = true
       /\ s = "~" ++ formatSeconds seconds)
  /\ (gasPriceFromTransaction ≫= eip1559 = None ->
      time formatSeconds gasPriceFromTransaction chainGasPrices = None)
  /\ (chainGasPrices ≫= (fun c => Info.eip1559 (info c)) = None ->
      time formatSeconds gasPriceFromTransaction chainGasPrices = None)
  /\ (forall own tiers,
        gasPriceFromTransaction ≫= eip1559 = Some own ->
        chainGasPrices ≫= (fun c => Info.eip1559 (info c)) = Some tiers ->
        findMatchingEip1559 tiers own = None ->
        time formatSeconds gasPriceFromTransaction chainGasPrices = None)
  /\ (forall own tiers tier,
        gasPriceFromTransaction ≫= eip1559 = Some own ->
        chainGasPrices ≫= (fun c => Info.eip1559 (info c)) = Some tiers ->
        findMatchingEip1559 tiers own = Some tier ->
        estimation_seconds tier = None
        \/ (exists seconds,
              estimation_seconds tier = Some seconds
              /\ number_truthy seconds = false) ->
        time formatSeconds gasPriceFromTransaction chainGasPrices = None).
Proof.
  split; [|split; [|split; [|split]]].
  - intros s Htime.
    apply time_some_iff in Htime
      as (seconds & (own & tiers & tier & Hown & Htiers & Hfind & Hsec
                     & Hok) & ->).
    exists own, tiers, tier, seconds.
    repeat split; try assumption.
    + apply find_some in Hfind as [_ Hmatch].
      now apply andb_true_iff in Hmatch as [Hmax _].
    + apply find_some in Hfind as [_ Hmatch].
      now apply andb_true_iff in Hmatch as [_ Hprio].
  - unfold time. now intros ->.
  - unfold time. intros ->.
    now destruct (gasPriceFromTransaction ≫= eip1559).
  - unfold time. now intros own tiers -> -> ->.
  - unfold time. intros own tiers tier -> -> -> Hseconds. simpl.
    destruct Hseconds as [-> | (seconds & -> & ->)]; reflexivity.
Qed.

(** Without a basis of the transaction's own there is no time, whatever
    tiers the chain has: the fallback prices are never matched. *)
Lemma time_needs_own_basis chainGasPrices :
  time formatSeconds None chainGasPrices = None.
Proof. reflexivity. Qed.

(** Nor is there one for a classic basis. *)
Lemma time_needs_eip1559 price chainGasPrices :
  time formatSeconds
       (Some {| classic := Some price; eip1559 := None |}) chainGasPrices
  = None.
Proof. reflexivity. Qed.

End TimeFacts.

Lemma time_only_when_truthy_witness :
  (exists tier seconds,
     findMatchingEip1559 Tiers.tied (Tiers.target 10 1) = Some tier
     /\ estimation_seconds tier = Some seconds
     /\ number_truthy seconds = true)
  /\ time Sample.formatSeconds Chains.own_basis
       (Some (Chains.one_tier 0)) = None.
Proof.
  split.
  - destruct (proj1 (time_only_when_truthy Sample.formatSeconds
                       Chains.own_basis (Some (Chains.prices Tiers.tied)))
                    "~5 sec" eq_refl)
      as (own & tiers & tier & seconds & Hown & Htiers & Hfind & _ & Hsec
          & Hok & _).
    injection Hown as <-. injection Htiers as <-.
    exists tier, seconds. auto.
  - apply (proj2 (proj2 (proj2 (proj2
             (time_only_when_truthy Sample.formatSeconds Chains.own_basis
                (Some (Chains.one_tier 0))))))
             (Tiers.target 10 1)
             {| rapid := None; fast := Some (Tiers.tier 10 1 0);
                standard := None; slow := None |}
             (Tiers.tier 10 1 0) eq_refl eq_refl eq_refl).
    right. exists pos_zero. split; reflexivity.
Defined.

(** C9 as stated fails: a matched tier with negative seconds is shown. *)
Lemma time_shown_for_negative_seconds :
  time Sample.formatSeconds Chains.own_basis (Some (Chains.one_tier (-5)))
    = Some "~-5 sec"
  /\ ~ time_only_when_positive Sample.formatSeconds
         Chains.own_basis (Some (Chains.one_tier (-5))).
Proof.
  split; [reflexivity|].
  intros Hclaim.
  destruct Hclaim as (seconds & own & tiers & tier & Hown & Htiers & Hfind
                      & Hsec & Hpos).
  - eexists. reflexivity.
  - injection Hown as <-. injection Htiers as <-.
    vm_compute in Hfind. injection Hfind as <-.
    vm_compute in Hsec. injection Hsec as <-.
    discriminate Hpos.
Qed.

(** Seconds that are [0] or absent give no time; positive ones do. *)
Example time_examples :
  time Sample.formatSeconds Chains.own_basis (Some (Chains.one_tier 0)) = None
  /\ time Sample.formatSeconds Chains.own_basis
       (Some (Chains.prices
                {| rapid := None; fast := Some (Tiers.target 10 1);
                   standard := None; slow := None |})) = None
  /\ time Sample.formatSeconds Chains.own_basis
       (Some (Chains.prices Tiers.tied))
     = Some "~5 sec"
  /\ time Sample.formatSeconds Chains.own_basis None = None.
Proof. repeat split; reflexivity. Qed.

(** ** The fiat value *)

(** Shifting back by the decimals undoes [baseToCommon]. *)
Lemma baseToCommon_shift value decimals :
  (baseToCommon value decimals * 10 ^ decimals == value)%Q.
Proof.
  unfold baseToCommon.
  assert (~ (10 ^ decimals == 0)%Q) as Hnz
    by (apply Qpower_not_0; discriminate).
  rewrite Qpower_opp. field. exact Hnz.
Qed.

Section FiatFacts.

Variable getDecimals : Asset -> Chain -> Z.

Local Abbreviation fiat := (fiatValue getDecimals).

(** C7, amended: for an estimation and a native asset with a price, the
    fiat result is the base-unit value shifted by the asset's decimals and
    multiplied by the price, so that shifting it back gives value times
    price; for an asset without a price the result is [null], which is no
    amount at all, zero included. *)
Theorem fiatValue_priced_or_null chain feeEstimation nativeAsset :
  (forall p, price nativeAsset = Some p ->
     exists amount,
       fiat chain (Some feeEstimation) (Some nativeAsset) = Defined amount
       /\ amount = (baseToCommon (FeeEstimation.value feeEstimation)
                                 (getDecimals nativeAsset chain)
                    * Price.value p)%Q
       /\ (amount * 10 ^ getDecimals nativeAsset chain
           == FeeEstimation.value feeEstimation * Price.value p)%Q)
  /\ (price nativeAsset = None ->
      fiat chain (Some feeEstimation) (Some nativeAsset) = Null
      /\ forall amount,
           fiat chain (Some feeEstimation) (Some nativeAsset)
           <> Defined amount).
Proof.
  unfold fiatValue. split.
  - intros p ->. eexists. split; [reflexivity|]. split; [reflexivity|].
    rewrite <- (baseToCommon_shift (FeeEstimation.value feeEstimation)
                  (getDecimals nativeAsset chain)) at 2.
    ring.
  - intros ->. split; [reflexivity | discriminate].
Qed.

(** Until both the asset and the estimation are there, the result is
    [undefined]. *)
Lemma fiatValue_pending chain feeEstimation nativeAsset :
  feeEstimation = None \/ nativeAsset = None ->
  fiat chain feeEstimation nativeAsset = Undefined.
Proof.
  intros [-> | ->]; [now destruct nativeAsset | reflexivity].
Qed.

End FiatFacts.

(** C7 as stated fails: without a price the result is [null] itself. *)
Lemma fiatValue_unpriced_is_null :
  fiatValue Sample.getDecimals Chains.ethereum
    (Some Assets.one_ether_fee) (Some (Assets.ether None)) = Null
  /\ ~ fiat_unknown_is_not_null Sample.getDecimals Chains.ethereum
         Assets.one_ether_fee (Assets.ether None).
Proof.
  split; [reflexivity|].
  intros [Hnullish _]. discriminate Hnullish.
Qed.

Lemma fiatValue_priced_or_null_witness :
  (exists amount,
     fiatValue Sample.getDecimals Chains.ethereum
       (Some Assets.one_ether_fee) (Some (Assets.ether (Some 2000%Q)))
     = Defined amount
     /\ (amount == 2000)%Q)
  /\ fiatValue Sample.getDecimals Chains.ethereum
       (Some Assets.one_ether_fee) (Some (Assets.ether None)) = Null.
Proof.
  split.
  - destruct (proj1 (fiatValue_priced_or_null Sample.getDecimals
                       Chains.ethereum Assets.one_ether_fee
                       (Assets.ether (Some 2000%Q)))
                    {| Price.value := 2000 |} eq_refl)
      as (amount & Hfiat & Hamount & _).
    exists amount. split; [exact Hfiat|].
    rewrite Hamount. reflexivity.
  - exact (proj1 (proj2 (fiatValue_priced_or_null Sample.getDecimals
                           Chains.ethereum Assets.one_ether_fee
                           (Assets.ether None))
                        eq_refl)).
Defined.

(** ** The basis handed to the estimation *)

Section RequestFacts.

Variable Number : value -> number.
Variable getGas : IncomingTransaction -> value.

(** The query function as [NetworkFee] builds it. *)
Local Abbreviation request tx chain :=
  (feeEstimationRequest Number tx chain (getGas tx)
     (getGasPriceFromTransaction Number getGas tx)).

(** Whatever is passed as [gasPrice], the rest of a request is the
    transaction, its sender or [null], the gas as a number and the prices
    of the chain. *)
Lemma feeEstimationRequest_rest tx chain prices r :
  request tx chain prices = inr r ->
  transaction r = tx
  /\ address r = or_else (get tx "from") VNull
  /\ gas r = Number (getGas tx)
  /\ gasPrices r = prices !! toString chain.
Proof.
  unfold feeEstimationRequest.
  destruct (getGasPriceFromTransaction Number getGas tx);
    [|destruct (prices !! toString chain)]; intros [= <-]; auto.
Qed.


(** Without a basis and without prices for the chain, reading [.info]
    throws and nothing is passed. *)
Lemma no_request_without_prices tx chain prices :
  getGasPriceFromTransaction Number getGas tx = None ->
  prices !! toString chain = None ->
  request tx chain prices = inl TypeError.
Proof. unfold feeEstimationRequest. now intros -> ->. Qed.

End RequestFacts.


(** ** The component *)

Section ComponentFacts.

Variable Number : value -> number.
Variable getGas : IncomingTransaction -> value.
Variable formatSeconds : number -> string.
Variable getDecimals : Asset -> Chain -> Z.
Variable formatCurrencyValue : Q -> string -> string -> string.
Variable isTruthy : option string -> bool.

Local Abbreviation component :=
  (NetworkFee Number getGas formatSeconds getDecimals formatCurrencyValue
              isTruthy).

(** C5: when [getGas] gives a falsy value the component throws.  The
    render is the [throw] itself: no hook has been called and no fee has
    been computed by then, and under every environment the run ends in
    the error with an empty log of calls. *)
Theorem NetworkFee_throws_without_gas tx chain :
  truthy (getGas tx) = false ->
  component tx chain = Throw missing_gas
  /\ forall env, run env (component tx chain) = (inl missing_gas, []).
Proof.
  intros Hgas.
  assert (component tx chain = Throw missing_gas) as Heq
    by (unfold NetworkFee; now rewrite Hgas).
  split; [exact Heq|]. intros env. now rewrite Heq.
Qed.


End ComponentFacts.

Lemma NetworkFee_throws_without_gas_witness :
  truthy (get Transactions.no_gas "gasPrice") = true
  /\ run Environments.resolved
       (NetworkFee Sample.Number Sample.getGas Sample.formatSeconds
          Sample.getDecimals Sample.formatCurrencyValue Sample.isTruthy
          Transactions.no_gas Chains.ethereum)
     = (inl missing_gas, []).
Proof.
  split; [reflexivity|].
  exact (proj2 (NetworkFee_throws_without_gas Sample.Number Sample.getGas
                  Sample.formatSeconds Sample.getDecimals
                  Sample.formatCurrencyValue Sample.isTruthy
                  Transactions.no_gas Chains.ethereum eq_refl)
               Environments.resolved).
Defined.

(** ** Whole renders *)

(** A transaction with [gas] and [gasPrice] on a chain whose fast classic
    price is lower: the transaction's price is the one passed on, the fee
    of [21000 * 50000000000] base units is [0.00105] ether, shown at a
    price of [2000] with the integer-part formatter of [Sample]. *)
Example render_classic :
  let tx := Sample.tx [("gas", VString "21000");
                       ("gasPrice", VString "50000000000")] in
  feeEstimationRequest Sample.Number tx Chains.ethereum (Sample.getGas tx)
    (getGasPriceFromTransaction Sample.Number Sample.getGas tx)
    Feeds.ethereum_only
  = inr {| transaction := tx;
           address := VNull;
           gas := of_Z 21000;
           gasPrices := Some (Chains.prices Tiers.tied);
           gasPrice := {| classic := Some (of_Z 50000000000);
                          eip1559 := None |} |}
  /\ Environments.render_with Environments.resolved tx
     = inr (HStack [UIText "body/s_reg" None "Network Fee";
                    UIText "body/s_reg" None "$2"]).
Proof. split; reflexivity. Qed.

(** An EIP-1559 transaction whose fees are those of a tier: the time of the
    first such tier is shown before the amount, under the label of the
    kind. *)
Example render_eip1559 :
  Environments.render_with Environments.resolved
    (Sample.tx [("gas", VString "21000"); ("maxFeePerGas", VString "10");
                ("maxPriorityFeePerGas", VString "1")])
  = inr (HStack [UIText "body/s_reg" None "Network Fee";
                 UIText "body/s_reg" (Some "EIP-1559") "~5 sec · $0"]).
Proof. reflexivity. Qed.

(** While the prices are on their way the spinner is shown. *)
Example render_pending :
  Environments.render_with Environments.pending Transactions.gas_only
  = inr (HStack [UIText "body/s_reg" None "Network Fee"; CircleSpinner]).
Proof. reflexivity. Qed.

(** Without gas nothing is rendered. *)
Example render_without_gas :
  Environments.render_with Environments.pending Transactions.no_gas
  = inl missing_gas.
Proof. reflexivity. Qed.

(** * Further properties *)

(** ** The basis, once more *)

Section BasisInvariants.

Variable Number : value -> number.
Variable getGas : IncomingTransaction -> value.

Local Abbreviation basis := (getGasPriceFromTransaction Number getGas).

(** X1: a basis read off a transaction has exactly one of its two parts,
    and its EIP-1559 part carries no [estimation_seconds]. *)
Theorem basis_has_one_part tx g :
  basis tx = Some g ->
  (is_Some (classic g) /\ eip1559 g = None)
  \/ (classic g = None
      /\ exists e, eip1559 g = Some e /\ estimation_seconds e = None).
Proof.
  rewrite getGasPriceFromTransaction_cases.
  destruct (classic_condition getGas tx);
    [|destruct (eip1559_condition tx)]; intros [= <-]; simpl; eauto.
Qed.

End BasisInvariants.

Lemma basis_has_one_part_witness :
  exists g,
    getGasPriceFromTransaction Sample.Number Sample.getGas Transactions.both
    = Some g
    /\ is_Some (classic g) /\ eip1559 g = None.
Proof.
  eexists. split; [reflexivity|].
  destruct (basis_has_one_part Sample.Number Sample.getGas
              Transactions.both _ eq_refl)
    as [Hclassic | [Hnone _]]; [exact Hclassic | discriminate Hnone].
Defined.

(** ** Strict equality and the tiers *)

(** [NaN] is strictly equal to nothing. *)
Lemma strict_eq_NaN_r x : strict_eq x NaN = false.
Proof. destruct x as [[]|[]| |[] m e]; reflexivity. Qed.

Lemma strict_eq_NaN_l x : strict_eq NaN x = false.
Proof. reflexivity. Qed.

(** On finite numbers other than zero, strict equality is equality of
    sign, mantissa and exponent. *)
Lemma strict_eq_finite s1 m1 e1 s2 m2 e2 :
  strict_eq (S754_finite s1 m1 e1) (S754_finite s2 m2 e2) = true
  <-> s1 = s2 /\ m1 = m2 /\ e1 = e2.
Proof.
  unfold strict_eq, SFeqb, SFcompare. split.
  - destruct s1, s2; try discriminate;
      destruct (Z.compare e1 e2) eqn:He; try discriminate;
      apply Z.compare_eq in He; subst e2;
      fold (Pos.compare m1 m2);
      destruct (Pos.compare m1 m2) eqn:Hm; try discriminate;
      apply Pos.compare_eq in Hm; subst m2; auto.
  - intros (-> & -> & ->). rewrite Z.compare_refl.
    fold (Pos.compare m2 m2). rewrite Pos.compare_refl.
    now destruct s2.
Qed.

(** X2: strict equality of numbers is symmetric, and so is the test of a
    tier against a target: the order of the arguments of [isMatch] does
    not matter. *)
Theorem isMatch_sym value1 value2 :
  isMatch value1 value2 = isMatch value2 value1.
Proof.
  assert (forall x y, strict_eq x y = strict_eq y x) as Hsym.
  { intros x y.
    destruct x as [[]|[]| |s1 m1 e1], y as [[]|[]| |s2 m2 e2];
      try reflexivity; try (now destruct s1); try (now destruct s2).
    destruct (strict_eq (S754_finite s1 m1 e1) (S754_finite s2 m2 e2))
      eqn:H12, (strict_eq (S754_finite s2 m2 e2) (S754_finite s1 m1 e1))
      eqn:H21; try reflexivity.
    - apply strict_eq_finite in H12 as (-> & -> & ->).
      rewrite <- H21. symmetry. now apply strict_eq_finite.
    - apply strict_eq_finite in H21 as (-> & -> & ->).
      rewrite <- H12. now apply strict_eq_finite. }
  unfold isMatch.
  now rewrite (Hsym (max_fee value1)), (Hsym (priority_fee value1)).
Qed.

(** The tiers that are there. *)
Lemma candidates_In prices t :
  In t (candidates prices)
  <-> rapid prices = Some t \/ fast prices = Some t
      \/ standard prices = Some t \/ slow prices = Some t.
Proof.
  unfold candidates, filter_isTruthy.
  destruct prices as [[r|] [f|] [st|] [sl|]]; simpl;
    intuition (subst; auto; congruence).
Qed.

(** X3: a tier is found exactly when one of the four tiers is present with
    both fees strictly equal to the target's, and what is found is such a
    tier; with all four absent nothing is found. *)
Theorem findMatchingEip1559_some_iff prices target :
  (is_Some (findMatchingEip1559 prices target)
   <-> exists t,
         (rapid prices = Some t \/ fast prices = Some t
          \/ standard prices = Some t \/ slow prices = Some t)
         /\ fees_equal t target)
  /\ (forall t,
        findMatchingEip1559 prices target = Some t ->
        (rapid prices = Some t \/ fast prices = Some t
         \/ standard prices = Some t \/ slow prices = Some t)
        /\ fees_equal t target).
Proof.
  assert (forall t,
            findMatchingEip1559 prices target = Some t ->
            (rapid prices = Some t \/ fast prices = Some t
             \/ standard prices = Some t \/ slow prices = Some t)
            /\ fees_equal t target) as Hsound.
  { intros t Hfind. apply find_some in Hfind as [Hin Hmatch].
    split; [now apply candidates_In | now apply isMatch_true]. }
  split; [|exact Hsound]. split.
  - intros [t Hfind]. exists t. now apply Hsound.
  - intros (t & Hin & Hmatch).
    destruct (findMatchingEip1559 prices target) as [t'|] eqn:Hfind;
      [eauto|].
    pose proof (find_none _ _ Hfind t (proj2 (candidates_In prices t) Hin))
      as Hno.
    apply isMatch_true in Hmatch. simpl in Hno. congruence.
Qed.

Lemma findMatchingEip1559_some_iff_witness :
  (rapid Tiers.tied = Some (Tiers.tier 10 1 5)
   \/ fast Tiers.tied = Some (Tiers.tier 10 1 5)
   \/ standard Tiers.tied = Some (Tiers.tier 10 1 5)
   \/ slow Tiers.tied = Some (Tiers.tier 10 1 5))
  /\ fees_equal (Tiers.tier 10 1 5) (Tiers.target 10 1).
Proof.
  exact (proj2 (findMatchingEip1559_some_iff Tiers.tied (Tiers.target 10 1))
               (Tiers.tier 10 1 5) eq_refl).
Defined.

(** A test that fails everywhere finds nothing. *)
Lemma find_nowhere {A} (p : A -> bool) (l : list A) :
  (forall x, p x = false) -> List.find p l = None.
Proof.
  intros Hp. induction l as [|a l IH]; simpl; [reflexivity|].
  now rewrite Hp.
Qed.

(** A target one of whose fees is [NaN] matches no tier. *)
Lemma NaN_target_matches_nothing prices target :
  max_fee target = NaN \/ priority_fee target = NaN ->
  findMatchingEip1559 prices target = None.
Proof.
  intros HNaN. apply find_nowhere. intros c. unfold isMatch.
  destruct HNaN as [-> | ->]; rewrite strict_eq_NaN_r;
    [reflexivity | apply andb_false_r].
Qed.

(** ** The time of a transaction *)

(** A time, when there is one, begins with a tilde. *)
Lemma time_tilde formatSeconds gasPriceFromTransaction chainGasPrices s :
  time formatSeconds gasPriceFromTransaction chainGasPrices = Some s ->
  exists rest, s = "~" ++ rest.
Proof.
  unfold time.
  destruct (gasPriceFromTransaction ≫= eip1559) as [own|]; [|discriminate].
  destruct (chainGasPrices ≫= _) as [tiers|]; [|discriminate].
  simpl. destruct (findMatchingEip1559 tiers own ≫= estimation_seconds)
    as [seconds|]; [|discriminate].
  destruct (number_truthy seconds); [|discriminate].
  intros [= <-]. eexists. reflexivity.
Qed.

Section TimeOfTransaction.

Variable Number : value -> number.
Variable getGas : IncomingTransaction -> value.
Variable formatSeconds : number -> string.

Local Abbreviation basis := (getGasPriceFromTransaction Number getGas).

(** X4: a transaction that meets the classic condition gets no
    confirmation time, whatever EIP-1559 fees it carries besides and
    whatever tiers the chain has. *)
Theorem classic_transaction_has_no_time tx chainGasPrices :
  truthy (getGas tx) = true ->
  truthy (get tx "gasPrice") = true ->
  time formatSeconds (basis tx) chainGasPrices = None.
Proof.
  intros Hgas Hprice.
  rewrite getGasPriceFromTransaction_cases.
  unfold classic_condition. now rewrite Hgas, Hprice.
Qed.

(** X5: a transaction one of whose two EIP-1559 fees [Number] turns into
    [NaN] gets no confirmation time: [NaN] is strictly equal to no fee of
    any tier. *)
Theorem non_numeric_fee_has_no_time tx chainGasPrices :
  Number (get tx "maxFeePerGas") = NaN
  \/ Number (get tx "maxPriorityFeePerGas") = NaN ->
  time formatSeconds (basis tx) chainGasPrices = None.
Proof.
  intros HNaN. rewrite getGasPriceFromTransaction_cases.
  destruct (classic_condition getGas tx); [reflexivity|].
  destruct (eip1559_condition tx); [|reflexivity].
  unfold time. simpl.
  destruct (chainGasPrices ≫= _) as [tiers|]; [|reflexivity].
  rewrite NaN_target_matches_nothing; [reflexivity|].
  simpl. tauto.
Qed.

End TimeOfTransaction.

Lemma classic_transaction_has_no_time_witness :
  truthy (get Transactions.both "maxFeePerGas") = true
  /\ time Sample.formatSeconds
       (getGasPriceFromTransaction Sample.Number Sample.getGas
          Transactions.both)
       (Some (Chains.prices Tiers.tied)) = None.
Proof.
  split; [reflexivity|].
  exact (classic_transaction_has_no_time Sample.Number Sample.getGas
           Sample.formatSeconds Transactions.both
           (Some (Chains.prices Tiers.tied)) eq_refl eq_refl).
Defined.

Lemma non_numeric_fee_has_no_time_witness :
  let tx := Sample.tx [("gas", VString "21000");
                       ("maxFeePerGas", VString "ten");
                       ("maxPriorityFeePerGas", VString "1")] in
  time Sample.formatSeconds
       (getGasPriceFromTransaction Sample.Number Sample.getGas tx)
       (Some (Chains.prices Tiers.tied)) = None.
Proof.
  exact (non_numeric_fee_has_no_time Sample.Number Sample.getGas
           Sample.formatSeconds
           (Sample.tx [("gas", VString "21000");
                       ("maxFeePerGas", VString "ten");
                       ("maxPriorityFeePerGas", VString "1")])
           (Some (Chains.prices Tiers.tied)) (or_introl eq_refl)).
Defined.

(** X16: the first matching tier decides alone.  When [rapid] matches the
    transaction's fees and has no seconds, or seconds that are falsy, no
    time is shown, whatever the tiers behind it hold. *)
Theorem first_match_without_seconds
    formatSeconds gasPriceFromTransaction chainGasPrices own tiers r :
  gasPriceFromTransaction ≫= eip1559 = Some own ->
  chainGasPrices ≫= (fun c => Info.eip1559 (info c)) = Some tiers ->
  rapid tiers = Some r ->
  fees_equal r own ->
  estimation_seconds r = None
  \/ (exists s, estimation_seconds r = Some s /\ number_truthy s = false) ->
  time formatSeconds gasPriceFromTransaction chainGasPrices = None.
Proof.
  intros Hown Htiers Hrapid Hmatch Hseconds.
  apply isMatch_true in Hmatch.
  assert (findMatchingEip1559 tiers own = Some r) as Hfind.
  { unfold findMatchingEip1559, candidates, filter_isTruthy.
    rewrite Hrapid. simpl. now rewrite Hmatch. }
  unfold time. rewrite Hown, Htiers, Hfind. simpl.
  destruct Hseconds as [-> | (s & -> & ->)]; reflexivity.
Qed.

Lemma first_match_without_seconds_witness :
  time Sample.formatSeconds Chains.own_basis
    (Some (Chains.prices
             {| rapid := Some (Tiers.tier 10 1 0);
                fast := Some (Tiers.tier 10 1 10);
                standard := None; slow := None |})) = None.
Proof.
  apply (first_match_without_seconds Sample.formatSeconds Chains.own_basis
           (Some (Chains.prices
                    {| rapid := Some (Tiers.tier 10 1 0);
                       fast := Some (Tiers.tier 10 1 10);
                       standard := None; slow := None |}))
           (Tiers.target 10 1)
           {| rapid := Some (Tiers.tier 10 1 0);
              fast := Some (Tiers.tier 10 1 10);
              standard := None; slow := None |}
           (Tiers.tier 10 1 0)
           eq_refl eq_refl eq_refl).
  - split; reflexivity.
  - right. exists pos_zero. split; reflexivity.
Defined.

(** ** The text of the fee *)

(** X6: for an [isTruthy] that drops [undefined] and keeps every string
    that is not empty, the text shown is the time and the formatted amount
    joined by a middle dot when both are let through; a time is always let
    through, and so is an amount that is not empty; what stands alone
    stands without the separator. *)
Theorem fee_text
    isTruthy formatSeconds gasPriceFromTransaction chainGasPrices f :
  isTruthy None = false ->
  (forall s, s <> "" -> isTruthy (Some s) = true) ->
  filter_join isTruthy " · "
    [time formatSeconds gasPriceFromTransaction chainGasPrices; Some f]
  = match time formatSeconds gasPriceFromTransaction chainGasPrices,
          isTruthy (Some f) with
    | None, true => f
    | None, false => ""
    | Some t, true => t ++ " · " ++ f
    | Some t, false => t
    end.
Proof.
  intros Hnone Hsome. unfold filter_join.
  destruct (time formatSeconds gasPriceFromTransaction chainGasPrices)
    as [t|] eqn:Htime; simpl.
  - apply time_tilde in Htime as [rest ->].
    rewrite Hsome by discriminate.
    destruct (isTruthy (Some f)); reflexivity.
  - rewrite Hnone. destruct (isTruthy (Some f)); reflexivity.
Qed.

Lemma fee_text_witness :
  filter_join Sample.isTruthy " · "
    [time Sample.formatSeconds Chains.own_basis
       (Some (Chains.prices Tiers.tied)); Some "$2"]
  = "~5 sec · $2".
Proof.
  exact (fee_text Sample.isTruthy Sample.formatSeconds
           Chains.own_basis (Some (Chains.prices Tiers.tied)) "$2"
           eq_refl
           (fun s => match s with
                     | EmptyString => fun H => False_ind _ (H eq_refl)
                     | String _ _ => fun _ => eq_refl
                     end)).
Defined.

(** ** The request, its failure and its address *)

Section RequestEdges.

Variable Number : value -> number.
Variable getGas : IncomingTransaction -> value.

Local Abbreviation basis := (getGasPriceFromTransaction Number getGas).
Local Abbreviation request tx chain :=
  (feeEstimationRequest Number tx chain (getGas tx) (basis tx)).

(** X7: building the request fails exactly when the transaction gives no
    basis and the subscription has no prices for the chain, and then with
    a [TypeError]; a transaction with a basis of its own goes through
    without prices for its chain, the request carrying [undefined] for
    them. *)
Theorem request_fails_iff tx chain prices :
  (forall e,
     request tx chain prices = inl e
     <-> e = TypeError
         /\ basis tx = None /\ prices !! toString chain = None)
  /\ (forall own,
        basis tx = Some own -> prices !! toString chain = None ->
        exists r,
          request tx chain prices = inr r
          /\ gasPrice r = own /\ gasPrices r = None).
Proof.
  unfold feeEstimationRequest. split.
  - intros e. destruct (basis tx) as [own|];
      [|destruct (prices !! toString chain) as [c|]].
    + split; [discriminate | intros (_ & [=] & _)].
    + split; [discriminate | intros (_ & _ & [=])].
    + split; [intros [= <-]; auto | now intros (-> & _)].
  - intros own -> Hnone. rewrite Hnone. eexists. repeat split.
Qed.

(** X8: the address of a request is the sender when that is truthy and
    [null] otherwise: a missing or empty [from] is passed as [null], never
    as [undefined] or as the empty string. *)
Theorem request_address tx chain prices r :
  request tx chain prices = inr r ->
  (truthy (get tx "from") = true /\ address r = get tx "from")
  \/ (truthy (get tx "from") = false /\ address r = VNull).
Proof.
  intros Hr.
  apply feeEstimationRequest_rest in Hr as (_ & -> & _).
  unfold or_else. destruct (truthy (get tx "from")); auto.
Qed.

End RequestEdges.

Lemma request_fails_iff_witness :
  (exists r,
     feeEstimationRequest Sample.Number Transactions.both
       {| toString := "polygon" |} (Sample.getGas Transactions.both)
       (getGasPriceFromTransaction Sample.Number Sample.getGas
          Transactions.both)
       Feeds.ethereum_only = inr r
     /\ gasPrice r
        = {| classic := Some (of_Z 50000000000); eip1559 := None |}
     /\ gasPrices r = None)
  /\ feeEstimationRequest Sample.Number Transactions.gas_only
       {| toString := "polygon" |} (Sample.getGas Transactions.gas_only)
       (getGasPriceFromTransaction Sample.Number Sample.getGas
          Transactions.gas_only)
       Feeds.ethereum_only
     = inl TypeError.
Proof.
  split.
  - exact (proj2 (request_fails_iff Sample.Number Sample.getGas
                    Transactions.both {| toString := "polygon" |}
                    Feeds.ethereum_only)
                 _ eq_refl eq_refl).
  - apply (proj1 (request_fails_iff Sample.Number Sample.getGas
                    Transactions.gas_only {| toString := "polygon" |}
                    Feeds.ethereum_only)).
    repeat split.
Defined.

Lemma request_address_witness :
  exists r,
    feeEstimationRequest Sample.Number Transactions.gas_only Chains.ethereum
      (Sample.getGas Transactions.gas_only)
      (getGasPriceFromTransaction Sample.Number Sample.getGas
         Transactions.gas_only)
      Feeds.ethereum_only = inr r
    /\ address r = VNull.
Proof.
  eexists. split; [reflexivity|].
  destruct (request_address Sample.Number Sample.getGas
              Transactions.gas_only Chains.ethereum Feeds.ethereum_only
              _ eq_refl) as [[Htruthy _] | [_ Haddress]];
    [discriminate Htruthy | exact Haddress].
Defined.

(** ** When a fiat value is there *)

Section FiatEdges.

Variable getDecimals : Asset -> Chain -> Z.

(** X9: the fiat value is [null] or [undefined] exactly when the native
    asset is missing, the estimation is missing, or the asset has no
    price; in every other case it is an amount. *)
Theorem fiatValue_nullish_iff chain feeEstimation nativeAsset :
  nullish (fiatValue getDecimals chain feeEstimation nativeAsset) = true
  <-> nativeAsset = None \/ feeEstimation = None
      \/ exists asset, nativeAsset = Some asset /\ price asset = None.
Proof.
  unfold fiatValue.
  destruct nativeAsset as [asset|], feeEstimation as [estimation|]; simpl;
    try (split; [auto | reflexivity]).
  destruct (price asset) as [p|] eqn:Hprice; simpl; split.
  - discriminate.
  - intros [[=] | [[=] | (a & [= <-] & Hnone)]]. congruence.
  - eauto.
  - reflexivity.
Qed.

(** X10: a price of zero is a price: the fiat value then is the amount
    zero, not [null]; and so it is for a fee of zero. *)
Theorem fiatValue_zero chain estimation asset p :
  price asset = Some p ->
  (Price.value p == 0)%Q \/ (FeeEstimation.value estimation == 0)%Q ->
  exists amount,
    fiatValue getDecimals chain (Some estimation) (Some asset)
    = Defined amount
    /\ (amount == 0)%Q.
Proof.
  intros Hprice Hzero. unfold fiatValue. rewrite Hprice.
  eexists. split; [reflexivity|]. unfold baseToCommon.
  destruct Hzero as [-> | ->]; ring.
Qed.

End FiatEdges.

Lemma fiatValue_zero_witness :
  exists amount,
    fiatValue Sample.getDecimals Chains.ethereum
      (Some Assets.one_ether_fee) (Some (Assets.ether (Some 0%Q)))
    = Defined amount
    /\ (amount == 0)%Q.
Proof.
  exact (fiatValue_zero Sample.getDecimals Chains.ethereum
           Assets.one_ether_fee (Assets.ether (Some 0%Q))
           {| Price.value := 0 |} eq_refl (or_introl (Qeq_refl 0))).
Defined.

(** ** What a render shows *)

(** Running under an environment is rendering under its answers. *)
Lemma run_interp {A} env (r : render A) :
  fst (run env r) = interp (fun X => @handle env X) r.
Proof.
  induction r as [a|e|X h k IH]; simpl; [reflexivity..|].
  assert (resolve (fun X => @handle env X) h = handle env h) as ->
    by now destruct h.
  destruct (handle env h) as [e|x]; [reflexivity|].
  rewrite <- IH. now destruct (run env (k x)).
Qed.

Section Renders.

Variable Number : value -> number.
Variable getGas : IncomingTransaction -> value.
Variable formatSeconds : number -> string.
Variable getDecimals : Asset -> Chain -> Z.
Variable formatCurrencyValue : Q -> string -> string -> string.
Variable isTruthy : option string -> bool.
(** What the hooks around the component answer, or throw, in the render at
    hand. *)
Variable answer : forall X, hookE X -> exn + X.

Local Abbreviation component :=
  (NetworkFee Number getGas formatSeconds getDecimals formatCurrencyValue
              isTruthy).
Local Abbreviation basis := (getGasPriceFromTransaction Number getGas).
Local Abbreviation asset chain := (answer _ (useNativeAsset chain)).
Local Abbreviation tiers chain :=
  (answer _ (useQuery_gasPrices ["defi-sdk/gasPrices"; toString chain]
               (fun gasPrices : gmap string ChainGasPrice =>
                  gasPrices !! toString chain) true)).
Local Abbreviation query tx chain :=
  (answer _ (useQuery_feeEstimation chain tx
               (feeEstimationRequest Number tx chain (getGas tx)
                  (basis tx)))).
Local Abbreviation label := (UIText "body/s_reg" None "Network Fee").

(** With the gas there and every hook answering, the render is a stack of
    the label and one cell. *)
Lemma NetworkFee_stack tx chain nativeAsset chainGasPrices q :
  truthy (getGas tx) = true ->
  asset chain = inr nativeAsset ->
  tiers chain = inr chainGasPrices ->
  query tx chain = inr q ->
  interp answer (component tx chain)
  = inr (HStack
      [ label;
        if isLoading q then CircleSpinner
        else match fiatValue getDecimals chain (data q) nativeAsset with
             | Undefined | Null => Nothing
             | Defined fiat =>
                 UIText "body/s_reg"
                   (getFeeTypeTitle (data q ≫= FeeEstimation.type))
                   (filter_join isTruthy " · "
                      [time formatSeconds (basis tx) chainGasPrices;
                       Some (formatCurrencyValue fiat "en" "usd")])
             end ]).
Proof.
  intros Hgas Hasset Htiers Hquery. unfold NetworkFee. rewrite Hgas.
  simpl. rewrite Hasset. simpl. rewrite Htiers. simpl.
  now rewrite Hquery.
Qed.

(** X11: without gas the component throws its own error.  With the gas
    there it throws what the first hook that throws has thrown, be it
    [useNativeAsset], the query of the gas prices or the query of the
    estimation; when the three answer, it renders a stack of two: the
    label "Network Fee" and one cell beside it. *)
Theorem NetworkFee_throws_or_renders tx chain :
  (truthy (getGas tx) = false ->
   interp answer (component tx chain) = inl missing_gas)
  /\ (truthy (getGas tx) = true ->
      match asset chain, tiers chain, query tx chain with
      | inl e, _, _ => interp answer (component tx chain) = inl e
      | inr _, inl e, _ => interp answer (component tx chain) = inl e
      | inr _, inr _, inl e => interp answer (component tx chain) = inl e
      | inr _, inr _, inr _ =>
          exists cell,
            interp answer (component tx chain)
            = inr (HStack [label; cell])
      end).
Proof.
  split; intros Hgas.
  - unfold NetworkFee. now rewrite Hgas.
  - destruct (asset chain) as [e|nativeAsset] eqn:Hasset.
    { unfold NetworkFee. rewrite Hgas. simpl. now rewrite Hasset. }
    destruct (tiers chain) as [e|chainGasPrices] eqn:Htiers.
    { unfold NetworkFee. rewrite Hgas. simpl. rewrite Hasset. simpl.
      now rewrite Htiers. }
    destruct (query tx chain) as [e|q] eqn:Hquery.
    { unfold NetworkFee. rewrite Hgas. simpl. rewrite Hasset. simpl.
      rewrite Htiers. simpl. now rewrite Hquery. }
    rewrite (NetworkFee_stack tx chain _ _ _ Hgas Hasset Htiers Hquery).
    eauto.
Qed.

(** X12: while the estimation is loading the cell is the spinner, whatever
    asset, prices and earlier estimation the hooks have answered. *)
Theorem NetworkFee_loading tx chain nativeAsset chainGasPrices q :
  truthy (getGas tx) = true ->
  asset chain = inr nativeAsset ->
  tiers chain = inr chainGasPrices ->
  query tx chain = inr q ->
  isLoading q = true ->
  interp answer (component tx chain) = inr (HStack [label; CircleSpinner]).
Proof.
  intros Hgas Hasset Htiers Hquery Hloading.
  now rewrite (NetworkFee_stack tx chain _ _ _ Hgas Hasset Htiers Hquery),
    Hloading.
Qed.

(** X13: once loaded, the cell is empty when the native asset is missing,
    when the estimation is missing, or when the asset has no price: no
    amount, no time and no title are shown. *)
Theorem NetworkFee_empty_cell tx chain nativeAsset chainGasPrices q :
  truthy (getGas tx) = true ->
  asset chain = inr nativeAsset ->
  tiers chain = inr chainGasPrices ->
  query tx chain = inr q ->
  isLoading q = false ->
  nativeAsset = None \/ data q = None
  \/ (exists a, nativeAsset = Some a /\ price a = None) ->
  interp answer (component tx chain) = inr (HStack [label; Nothing]).
Proof.
  intros Hgas Hasset Htiers Hquery Hloaded Hmissing.
  rewrite (NetworkFee_stack tx chain _ _ _ Hgas Hasset Htiers Hquery),
    Hloaded.
  unfold fiatValue.
  destruct Hmissing as [-> | [-> | (a & -> & Hprice)]].
  - reflexivity.
  - now destruct nativeAsset.
  - rewrite Hprice. now destruct (data q).
Qed.

(** X14: once loaded, with an asset that has a price and an estimation,
    the cell is a text: its title is the label of the estimation's kind,
    its content what [filter(isTruthy).join(' · ')] makes of the time of
    the transaction's own basis against the tiers of the chain and of the
    formatted product of the common quantity and the price, in locale [en]
    and currency [usd]. *)
Theorem NetworkFee_text_cell
    tx chain chainGasPrices q a p estimation :
  truthy (getGas tx) = true ->
  asset chain = inr (Some a) ->
  tiers chain = inr chainGasPrices ->
  query tx chain = inr q ->
  isLoading q = false ->
  price a = Some p ->
  data q = Some estimation ->
  interp answer (component tx chain)
  = inr (HStack
      [ label;
        UIText "body/s_reg"
          (getFeeTypeTitle (FeeEstimation.type estimation))
          (filter_join isTruthy " · "
             [time formatSeconds (basis tx) chainGasPrices;
              Some (formatCurrencyValue
                      (baseToCommon (FeeEstimation.value estimation)
                                    (getDecimals a chain)
                       * Price.value p)%Q
                      "en" "usd")]) ]).
Proof.
  intros Hgas Hasset Htiers Hquery Hloaded Hprice Hdata.
  rewrite (NetworkFee_stack tx chain _ _ _ Hgas Hasset Htiers Hquery),
    Hloaded, Hdata.
  unfold fiatValue. now rewrite Hprice.
Qed.

End Renders.

Lemma NetworkFee_throws_or_renders_witness :
  interp (fun X => @handle Environments.failed X)
    (NetworkFee Sample.Number Sample.getGas Sample.formatSeconds
       Sample.getDecimals Sample.formatCurrencyValue Sample.isTruthy
       Transactions.both Chains.ethereum)
  = inl (Error "Failed to fetch")
  /\ exists cell,
       interp (fun X => @handle Environments.resolved X)
         (NetworkFee Sample.Number Sample.getGas Sample.formatSeconds
            Sample.getDecimals Sample.formatCurrencyValue Sample.isTruthy
            Transactions.both Chains.ethereum)
       = inr (HStack [UIText "body/s_reg" None "Network Fee"; cell]).
Proof.
  split.
  - exact (proj2 (NetworkFee_throws_or_renders Sample.Number Sample.getGas
                    Sample.formatSeconds Sample.getDecimals
                    Sample.formatCurrencyValue Sample.isTruthy
                    (fun X => @handle Environments.failed X)
                    Transactions.both Chains.ethereum)
                 eq_refl).
  - exact (proj2 (NetworkFee_throws_or_renders Sample.Number Sample.getGas
                    Sample.formatSeconds Sample.getDecimals
                    Sample.formatCurrencyValue Sample.isTruthy
                    (fun X => @handle Environments.resolved X)
                    Transactions.both Chains.ethereum)
                 eq_refl).
Defined.

Lemma NetworkFee_loading_witness :
  interp (fun X => @handle Environments.pending X)
    (NetworkFee Sample.Number Sample.getGas Sample.formatSeconds
       Sample.getDecimals Sample.formatCurrencyValue Sample.isTruthy
       Transactions.both Chains.ethereum)
  = inr (HStack [UIText "body/s_reg" None "Network Fee"; CircleSpinner]).
Proof.
  exact (NetworkFee_loading Sample.Number Sample.getGas
           Sample.formatSeconds Sample.getDecimals
           Sample.formatCurrencyValue Sample.isTruthy
           (fun X => @handle Environments.pending X)
           Transactions.both Chains.ethereum _ _ _
           eq_refl eq_refl eq_refl eq_refl eq_refl).
Defined.

Lemma NetworkFee_empty_cell_witness :
  interp (fun X =>
            @handle {| nativeAssets := fun _ => Some (Assets.ether None);
                       subscription := Resolved Feeds.ethereum_only;
                       getNetworkFeeEstimation := Environments.estimate |} X)
    (NetworkFee Sample.Number Sample.getGas Sample.formatSeconds
       Sample.getDecimals Sample.formatCurrencyValue Sample.isTruthy
       Transactions.both Chains.ethereum)
  = inr (HStack [UIText "body/s_reg" None "Network Fee"; Nothing]).
Proof.
  eapply NetworkFee_empty_cell; try reflexivity.
  right. right. exists (Assets.ether None). split; reflexivity.
Defined.

Lemma NetworkFee_text_cell_witness :
  interp (fun X => @handle Environments.resolved X)
    (NetworkFee Sample.Number Sample.getGas Sample.formatSeconds
       Sample.getDecimals Sample.formatCurrencyValue Sample.isTruthy
       Transactions.eip1559_only Chains.ethereum)
  = inr (HStack [UIText "body/s_reg" None "Network Fee";
                 UIText "body/s_reg" (Some "EIP-1559") "$2"]).
Proof.
  exact (NetworkFee_text_cell Sample.Number Sample.getGas
           Sample.formatSeconds Sample.getDecimals
           Sample.formatCurrencyValue Sample.isTruthy
           (fun X => @handle Environments.resolved X)
           Transactions.eip1559_only Chains.ethereum _ _
           (Assets.ether (Some 2000%Q)) {| Price.value := 2000 |} _
           eq_refl eq_refl eq_refl eq_refl eq_refl eq_refl eq_refl).
Defined.

